(** * nebula-carina: settings loading, data-type literals and schema names

    A shallow embedding of [nebula_carina/settings.py] together with the
    part of the data-type catalogue that the repository's compatibility
    tests exercise.

    - [Typing]    : the type expressions of Python's [typing] module that
                    [is_optional] inspects ([get_origin], [get_args]).
    - [Settings]  : the two settings-loading paths, the hand-written
                    [DjangoCarinaDatabaseSettings] and the pydantic
                    [DatabaseSettings].
    - [Loading]   : the module body, which picks one of the two paths.
    - [DataTypes] : literal rendering of scalar data types. *)

From Stdlib Require Import ZArith Ascii String List Lia Bool.
From Stdlib Require Import DecimalString DecimalZ.
From stdpp Require Import base option gmap strings list fin_maps.

Set Warnings "-register-all".
Local Open Scope string_scope.

(** ** Python values

    The values that occur as class attributes, as field defaults, as
    entries of [settings.CARINA_SETTINGS] and as field values of the
    compatibility tests ([VDate y m d] is [datetime.date(y, m, d)]). *)

Inductive pyval : Type :=
  | VNone
  | VBool (b : bool)
  | VInt (n : Z)
  | VStr (s : string)
  | VSet (xs : gset string)
  | VDate (year month day : Z)
  | VCallable (qualname : string).

#[global] Instance pyval_eq_dec : EqDecision pyval.
Proof. solve_decision. Defined.

(** ** An exception monad

    [__init__] either completes or raises; [assert] raises
    [AssertionError] with the formatted message. *)

Inductive exn : Type :=
  | AssertionError (msg : string)
  | ValidationError (field : string).

Inductive result (A : Type) : Type :=
  | Ok (a : A)
  | Raise (e : exn).

Arguments Ok {A} a.
Arguments Raise {A} e.

#[global] Instance result_bind : MBind result := fun A B k m =>
  match m with
  | Ok a => k a
  | Raise e => Raise e
  end.

#[global] Instance result_ret : MRet result := fun A a => Ok a.

Definition assert_ (cond : bool) (msg : string) : result unit :=
  if cond then Ok tt else Raise (AssertionError msg).

(** [for x in xs: self = body self x], stopping at the first exception. *)
Fixpoint for_each {A S} (body : S -> A -> result S) (xs : list A) (s : S)
  : result S :=
  match xs with
  | [] => Ok s
  | x :: rest => s' ← body s x; for_each body rest s'
  end.

(** ** Type expressions of the [typing] module *)

Module Typing.

(** A type expression as it appears in an annotation.
    [TUnion] is a [typing.Union[...]] object (what [Optional[X]] builds);
    [TUnionType] is the object built by [X | Y] on interpreters where
    that is a [types.UnionType], distinct from [typing.Union];
    [TGeneric] is a subscripted generic such as [Set[str]]. *)
Inductive ty : Type :=
  | TNoneType
  | TClass (name : string)
  | TGeneric (origin : string) (args : list ty)
  | TUnion (args : list ty)
  | TUnionType (args : list ty).

Definition int : ty := TClass "int".
Definition str : ty := TClass "str".
Definition Set_ (a : ty) : ty := TGeneric "set" [a].

Inductive origin : Type :=
  | Union
  | UnionType
  | OClass (name : string).

(** [typing.get_origin]: [None] for an unsubscripted type. *)
Definition get_origin (tp : ty) : option origin :=
  match tp with
  | TNoneType => None
  | TClass _ => None
  | TGeneric o _ => Some (OClass o)
  | TUnion _ => Some Union
  | TUnionType _ => Some UnionType
  end.

(** [typing.get_args]: the empty tuple for an unsubscripted type. *)
Definition get_args (tp : ty) : list ty :=
  match tp with
  | TNoneType => []
  | TClass _ => []
  | TGeneric _ args => args
  | TUnion args => args
  | TUnionType args => args
  end.

(** [x is Union] *)
Definition is_Union (o : option origin) : bool :=
  match o with
  | Some Union => true
  | _ => false
  end.

(** [x == type(None)], the test [in] performs on each element. *)
Definition is_NoneType (tp : ty) : bool :=
  match tp with
  | TNoneType => true
  | _ => false
  end.

(** [type(None) in args] *)
Definition NoneType_in (args : list ty) : bool := existsb is_NoneType args.

(** A union of either kind: a [typing.Union] object or a
    [types.UnionType] object. *)
Definition is_union (tp : ty) : bool :=
  match tp with
  | TUnion _ | TUnionType _ => true
  | _ => false
  end.

(** [a == b] on type expressions.  Subscripted generics are equal when
    their origins and their arguments, in order, are; two unions, of
    either kind, are equal when they have the same members, in whatever
    order. *)
Fixpoint ty_eqb (a b : ty) {struct a} : bool :=
  let fix all2 (xs ys : list ty) {struct xs} : bool :=
    match xs, ys with
    | [], [] => true
    | x :: xs', y :: ys' => ty_eqb x y && all2 xs' ys'
    | _, _ => false
    end in
  let same_members (xs ys : list ty) : bool :=
    forallb (fun x => existsb (fun y => ty_eqb x y) ys) xs
    && forallb (fun y => existsb (fun x => ty_eqb x y) xs) ys in
  match a, b with
  | TNoneType, TNoneType => true
  | TClass n, TClass m => String.eqb n m
  | TGeneric o xs, TGeneric p ys => String.eqb o p && all2 xs ys
  | TUnion xs, TUnion ys => same_members xs ys
  | TUnion xs, TUnionType ys => same_members xs ys
  | TUnionType xs, TUnion ys => same_members xs ys
  | TUnionType xs, TUnionType ys => same_members xs ys
  | _, _ => false
  end.

(** What [typing.Union[args]] evaluates to, for a non-empty [args]: the
    members of an argument that is itself a union, of either kind, take
    its place; an argument equal to an earlier one is dropped; and a union
    of one type is that type. *)
Definition flatten (args : list ty) : list ty :=
  List.flat_map (fun a => match a with
                          | TUnion xs => xs
                          | TUnionType xs => xs
                          | _ => [a]
                          end) args.

Fixpoint dedup (args : list ty) : list ty :=
  match args with
  | [] => []
  | a :: rest =>
      a :: List.filter (fun b => negb (ty_eqb a b)) (dedup rest)
  end.

Definition mk_Union (args : list ty) : ty :=
  match dedup (flatten args) with
  | [a] => a
  | args' => TUnion args'
  end.

(** [typing.Optional[X]] is [Union[X, None]]. *)
Definition Optional (x : ty) : ty := mk_Union [x; TNoneType].

End Typing.

(** ** The settings module, [nebula_carina/settings.py] *)

Module Settings.
Import Typing.

(** How a declared field behaves when nothing is supplied for it. *)
Inductive field_status : Type :=
  | Required
  | Defaulted (v : pyval)
  | Unset.

(** *** The path taken when [django.conf] imports *)
Module DjangoCarinaDatabaseSettings.

(** [DjangoCarinaDatabaseSettings.__dict__["__annotations__"]], in
    declaration order. *)
Definition annotations : list (string * ty) :=
  [ ("max_connection_pool_size", int);
    ("servers", Set_ str);
    ("user_name", str);
    ("password", str);
    ("default_space", str);
    ("auto_create_default_space_with_vid_desc", Optional str);
    ("model_paths", Set_ str);
    ("timezone_name", str) ].

(** The attributes bound in the class body (the dunder entries every
    class has are left out).  An annotation without a value
    ([user_name], [password], [auto_create_default_space_with_vid_desc])
    binds nothing. *)
Definition class_dict : gmap string pyval :=
  list_to_map
    [ ("max_connection_pool_size", VInt 10);
      ("servers", VSet ∅);
      ("default_space", VStr "main");
      ("model_paths", VSet ∅);
      ("timezone_name", VStr "UTC");
      ("is_optional",
        VCallable "DjangoCarinaDatabaseSettings.is_optional");
      ("__init__", VCallable "DjangoCarinaDatabaseSettings.__init__") ].

(** [hasattr(DjangoCarinaDatabaseSettings, key)].  The only base class
    is [object], whose attributes are all dunder names. *)
Definition hasattr (key : string) : bool :=
  bool_decide (is_Some (class_dict !! key)).

(** [typing.get_origin(tp) is Union and
     type(None) in typing.get_args(tp)] *)
Definition is_optional (tp : ty) : bool :=
  is_Union (get_origin tp) && NoneType_in (get_args tp).

Definition required_msg (key : string) : string :=
  "Setting " ++ key
    ++ " is required but not provided in CARINA_SETTINGS.".

(** [key in kwargs] *)
Definition contains (kwargs : gmap string pyval) (key : string) : bool :=
  bool_decide (is_Some (kwargs !! key)).

(** The guard of the [if] in [__init__]. *)
Definition must_be_given (key : string) (type_ : ty) : bool :=
  negb (is_optional type_) && negb (hasattr key).

(** [key in kwargs and setattr(self, key, kwargs[key])] on the
    instance [__dict__]. *)
Definition store (kwargs self : gmap string pyval) (key : string)
  : gmap string pyval :=
  match kwargs !! key with
  | Some v => <[key := v]> self
  | None => self
  end.

(** One iteration of the loop of [__init__]. *)
Definition init_body (kwargs self : gmap string pyval)
    (item : string * ty) : result (gmap string pyval) :=
  let '(key, type_) := item in
  _ ← (if must_be_given key type_
       then assert_ (contains kwargs key) (required_msg key)
       else Ok tt);
  Ok (store kwargs self key).

(** Constructing [DjangoCarinaDatabaseSettings] from keyword arguments:
    the instance [__dict__] of the new object, or the exception
    raised.  [kwargs] is the dictionary the double-star parameter binds,
    keyed by the argument names. *)
Definition __init__ (kwargs : gmap string pyval)
  : result (gmap string pyval) :=
  for_each (init_body kwargs) annotations ∅.

(** [getattr(self, name)]: the instance [__dict__] first, then the
    class; [None] stands for [AttributeError].  The names every class and
    [object] provide, which all begin with two underscores, are outside
    [class_dict], so the model speaks for the other names. *)
Definition getattr (self : gmap string pyval) (name : string)
  : option pyval :=
  match self !! name with
  | Some v => Some v
  | None => class_dict !! name
  end.

(** A name beginning with two underscores. *)
Definition is_dunder (name : string) : bool := String.prefix "__" name.

(** The declared settings, and those [__init__] insists on. *)
Definition declared : list string := map fst annotations.

Definition annotation_of (key : string) : option ty :=
  snd <$> List.find (fun kt => String.eqb (fst kt) key) annotations.

Definition required : list string :=
  map fst (List.filter (fun kt => must_be_given (fst kt) (snd kt))
             annotations).

(** The key at which the loop of [__init__] over [anns] stops, if any. *)
Fixpoint first_missing (kwargs : gmap string pyval)
    (anns : list (string * ty)) : option string :=
  match anns with
  | [] => None
  | (key, type_) :: rest =>
      if must_be_given key type_ && negb (contains kwargs key)
      then Some key
      else first_missing kwargs rest
  end.

(** The first required setting, in declaration order, that [kwargs]
    lacks. *)
Definition first_absent (kwargs : gmap string pyval) : option string :=
  List.find (fun key => negb (contains kwargs key)) required.

(** [key in msg] on text: [key] occurs somewhere in [msg]. *)
Fixpoint mentions (key msg : string) : bool :=
  String.prefix key msg
  || match msg with
     | EmptyString => false
     | String _ rest => mentions key rest
     end.

(** The exception is the assertion failure whose message names
    [key]. *)
Definition names_setting (e : exn) (key : string) : Prop :=
  ∃ msg, e = AssertionError msg ∧ mentions key msg = true.

Definition status (key : string) : option field_status :=
  match List.find (fun kt => String.eqb (fst kt) key) annotations with
  | None => None
  | Some (_, type_) =>
      Some (match class_dict !! key with
            | Some v => Defaulted v
            | None => if is_optional type_ then Unset else Required
            end)
  end.

End DjangoCarinaDatabaseSettings.

(** *** The path taken when [django.conf] does not import *)
Module DatabaseSettings.

(** A field of the pydantic model: its annotation and, when the class
    body assigns one, its default. *)
Record field : Type := Field {
  f_name : string;
  f_annotation : ty;
  f_default : option pyval
}.

(** [DatabaseSettings.model_fields], in declaration order
    ([model_config] is configuration, not a field). *)
Definition model_fields : list field :=
  [ Field "max_connection_pool_size" int (Some (VInt 10));
    Field "servers" (Set_ str) (Some (VSet {["101.35.211.56:9669"]}));
    Field "user_name" (Optional str) (Some (VStr "root"));
    Field "password" (Optional str) (Some (VStr "rkRK123@"));
    Field "default_space" str (Some (VStr "main"));
    Field "auto_create_default_space_with_vid_desc" (Optional str)
      (Some VNone);
    Field "model_paths" (Set_ str) (Some (VSet ∅));
    Field "timezone_name" str (Some (VStr "UTC")) ].

Definition env_prefix : string := "nebula_".

Definition declared : list string := map f_name model_fields.

Definition annotation_of (key : string) : option ty :=
  f_annotation <$> List.find (fun f => String.eqb (f_name f) key) model_fields.

(** The value a field receives: the one the settings sources hold under
    the prefixed name, else the declared default. *)
Definition supplied (sources : gmap string pyval) (f : field)
  : option pyval :=
  match sources !! (env_prefix ++ f_name f) with
  | Some v => Some v
  | None => f_default f
  end.

(** One field of [DatabaseSettings()]: the value the settings sources
    hold under the prefixed name, else the default, else the model
    is rejected.  [sources] holds the values already decoded and
    validated, under names in lower case; the rejection of a source value
    that does not fit the annotation is not modelled. *)
Definition init_body (sources self : gmap string pyval) (f : field)
  : result (gmap string pyval) :=
  match sources !! (env_prefix ++ f_name f) with
  | Some v => Ok (<[f_name f := v]> self)
  | None =>
      match f_default f with
      | Some d => Ok (<[f_name f := d]> self)
      | None => Raise (ValidationError (f_name f))
      end
  end.

Definition __init__ (sources : gmap string pyval)
  : result (gmap string pyval) :=
  for_each (init_body sources) model_fields ∅.

Definition getattr (self : gmap string pyval) (name : string)
  : option pyval := self !! name.

Definition status (key : string) : option field_status :=
  match List.find (fun f => String.eqb (f_name f) key) model_fields with
  | None => None
  | Some f =>
      Some (match f_default f with
            | Some d => Defaulted d
            | None => Required
            end)
  end.

End DatabaseSettings.

(** The capabilities of the connection configuration, by field name. *)
Definition connection_config_fields : list string :=
  [ "max_connection_pool_size"; "servers"; "user_name"; "password";
    "default_space"; "auto_create_default_space_with_vid_desc";
    "timezone_name" ].

(** The fields on which the class bodies of the two paths say the same. *)
Definition agreeing_fields : list string :=
  [ "max_connection_pool_size"; "default_space"; "model_paths";
    "timezone_name" ].

End Settings.

(** ** Loading the module: which path builds [database_settings] *)

Module Loading.
Import Settings.








End Loading.

(** ** Characters used by the literal syntax *)

Definition dquote : ascii := "034"%char.
Definition backslash : ascii := "092"%char.

(** ** Data-type descriptors *)

Module DataTypes.

(** Modelled from the spec: the data-type catalogue
    ([nebula_carina.ngql.schema.data_types], which the tests import, is
    not among the sources).  Each descriptor has a validation rule and a
    literal rule ([value2db_str], the spec's [to_literal]): strings are
    double-quoted with embedded quote and backslash characters escaped,
    integers are bounded by their signed width and written in decimal,
    booleans are the unquoted lowercase tokens, dates are wrapped as
    [date("YYYY-MM-DD")].  The floating-point and date-time descriptors,
    for which the spec fixes no pattern, are left out. *)
Inductive data_type : Type :=
  | String_
  | FixedString (max_len : nat)
  | Int8
  | Int16
  | Int32
  | Int64
  | Bool
  | Date.

Definition int_bits (t : data_type) : option Z :=
  match t with
  | Int8 => Some 8%Z
  | Int16 => Some 16%Z
  | Int32 => Some 32%Z
  | Int64 => Some 64%Z
  | _ => None
  end.

Definition in_signed_range (bits n : Z) : bool :=
  ((- 2 ^ (bits - 1) <=? n) && (n <? 2 ^ (bits - 1)))%Z.

Definition is_leap (y : Z) : bool :=
  ((y mod 4 =? 0) && (negb (y mod 100 =? 0) || (y mod 400 =? 0)))%Z.

Definition days_in_month (y m : Z) : Z :=
  (if m =? 2 then (if is_leap y then 29 else 28)
   else if (m =? 4) || (m =? 6) || (m =? 9) || (m =? 11) then 30
   else 31)%Z.

(** The dates [datetime.date] can hold. *)
Definition valid_date (y m d : Z) : bool :=
  ((1 <=? y) && (y <=? 9999) && (1 <=? m) && (m <=? 12)
   && (1 <=? d) && (d <=? days_in_month y m))%Z.

(** Modelled from the spec: [validate], the values a descriptor
    accepts. *)
Definition validate (t : data_type) (v : pyval) : bool :=
  match t, v with
  | String_, VStr _ => true
  | FixedString n, VStr s => Nat.leb (String.length s) n
  | Bool, VBool _ => true
  | Date, VDate y m d => valid_date y m d
  | _, VInt n =>
      match int_bits t with
      | Some bits => in_signed_range bits n
      | None => false
      end
  | _, _ => false
  end.

(** *** Strings *)

Definition needs_escape (c : ascii) : bool :=
  Ascii.eqb c dquote || Ascii.eqb c backslash.

Fixpoint escape (s : string) : string :=
  match s with
  | EmptyString => EmptyString
  | String c rest =>
      if needs_escape c
      then String backslash (String c (escape rest))
      else String c (escape rest)
  end.

Definition quote (s : string) : string :=
  String dquote (escape s ++ String dquote EmptyString).

(** The text after the opening quote, up to the closing quote, which
    must be the last character. *)
Fixpoint unquote_body (s : string) : option string :=
  match s with
  | EmptyString => None
  | String c rest =>
      if Ascii.eqb c dquote then
        match rest with
        | EmptyString => Some EmptyString
        | String _ _ => None
        end
      else if Ascii.eqb c backslash then
        match rest with
        | String c' rest' =>
            if needs_escape c'
            then String c' <$> unquote_body rest'
            else None
        | EmptyString => None
        end
      else String c <$> unquote_body rest
  end.

Definition unquote (s : string) : option string :=
  match s with
  | String c rest => if Ascii.eqb c dquote then unquote_body rest else None
  | EmptyString => None
  end.

(** *** Integers *)

Definition int_literal (n : Z) : string :=
  NilZero.string_of_int (Z.to_int n).

Definition parse_int (s : string) : option Z :=
  Z.of_int <$> NilZero.int_of_string s.

(** *** Dates *)

Definition digit (n : Z) : ascii := ascii_of_nat (48 + Z.to_nat n).

Definition digit_val (c : ascii) : option Z :=
  let n := nat_of_ascii c in
  if Nat.leb 48 n && Nat.leb n 57 then Some (Z.of_nat (n - 48)) else None.

Definition pad2 (n : Z) (k : string) : string :=
  String (digit (n / 10)) (String (digit (n mod 10)) k).

Definition pad4 (n : Z) (k : string) : string :=
  String (digit (n / 1000)) (String (digit (n / 100 mod 10))
    (String (digit (n / 10 mod 10)) (String (digit (n mod 10)) k))).

(** [YYYY-MM-DD], followed by [k] *)
Definition isoformat (y m d : Z) (k : string) : string :=
  pad4 y (String "-" (pad2 m (String "-" (pad2 d k)))).

Definition date_literal (y m d : Z) : string :=
  "date(" ++ String dquote (isoformat y m d (String dquote ")")).

Definition num2 (a b : ascii) : option Z :=
  x ← digit_val a; y ← digit_val b; Some (10 * x + y)%Z.

Definition num4 (a b c d : ascii) : option Z :=
  x ← num2 a b; y ← num2 c d; Some (100 * x + y)%Z.

Fixpoint strip_prefix (p s : string) : option string :=
  match p, s with
  | EmptyString, _ => Some s
  | String a p', String b s' =>
      if Ascii.eqb a b then strip_prefix p' s' else None
  | String _ _, EmptyString => None
  end.

Definition parse_date (s : string) : option pyval :=
  rest ← strip_prefix ("date(" ++ String dquote EmptyString) s;
  match list_ascii_of_string rest with
  | [y1; y2; y3; y4; h1; m1; m2; h2; d1; d2; q; rp] =>
      if Ascii.eqb h1 "-" && Ascii.eqb h2 "-"
         && Ascii.eqb q dquote && Ascii.eqb rp ")"
      then
        y ← num4 y1 y2 y3 y4; m ← num2 m1 m2; d ← num2 d1 d2;
        Some (VDate y m d)
      else None
  | _ => None
  end.

(** *** Booleans *)

Definition bool_literal (b : bool) : string :=
  if b then "true" else "false".

Definition parse_bool (s : string) : option bool :=
  if String.eqb s "true" then Some true
  else if String.eqb s "false" then Some false
  else None.

(** A literal without a quote character, and one made of lowercase
    letters only. *)
Definition unquoted (lit : string) : bool :=
  negb (existsb (Ascii.eqb dquote) (list_ascii_of_string lit)).

Definition is_lowercase_letter (c : ascii) : bool :=
  let n := nat_of_ascii c in Nat.leb 97 n && Nat.leb n 122.

Definition lowercase_token (lit : string) : bool :=
  forallb is_lowercase_letter (list_ascii_of_string lit).

(** The text [date("2023-01-01")]. *)
Definition date_2023_01_01_literal : string :=
  "date(" ++ String dquote ("2023-01-01" ++ String dquote ")").

(** Modelled from the spec: [value2db_str], the literal form of a value
    of the descriptor's kind ([None] for a value of another kind, about
    which the spec is silent). *)
Definition value2db_str (t : data_type) (v : pyval) : option string :=
  match t, v with
  | String_, VStr s => Some (quote s)
  | FixedString _, VStr s => Some (quote s)
  | Bool, VBool b => Some (bool_literal b)
  | Date, VDate y m d => Some (date_literal y m d)
  | _, VInt n =>
      match int_bits t with
      | Some _ => Some (int_literal n)
      | None => None
      end
  | _, _ => None
  end.

(** Modelled from the spec: the inverse rule of each descriptor, reading
    a literal back into a value. *)
Definition parse_literal (t : data_type) (lit : string) : option pyval :=
  match t with
  | String_ | FixedString _ => VStr <$> unquote lit
  | Int8 | Int16 | Int32 | Int64 => VInt <$> parse_int lit
  | Bool => VBool <$> parse_bool lit
  | Date => parse_date lit
  end.

End DataTypes.

(** * Properties *)

(** ** [is_optional] *)

Module TypingFacts.
Import Typing.
Import Settings.DjangoCarinaDatabaseSettings.






(** [Optional[X]] of a class or a subscripted generic is the two-element
    union, on which [is_optional] answers [True]. *)
Lemma Optional_class (n : string) :
  Optional (TClass n) = TUnion [TClass n; TNoneType].
Proof. reflexivity. Qed.

Lemma Optional_generic (o : string) (args : list ty) :
  Optional (TGeneric o args) = TUnion [TGeneric o args; TNoneType].
Proof. reflexivity. Qed.

Lemma Optional_NoneType : Optional TNoneType = TNoneType.
Proof. reflexivity. Qed.

Example is_optional_Optional_str : is_optional (Optional str) = true.
Proof. reflexivity. Qed.

Example is_optional_str : is_optional str = false.
Proof. reflexivity. Qed.

Example is_optional_Set_str : is_optional (Set_ str) = false.
Proof. reflexivity. Qed.

Example is_optional_Union_int_str :
  is_optional (mk_Union [int; str]) = false.
Proof. reflexivity. Qed.

(** A union written with the bar operator, where that builds a
    [types.UnionType] object, has another origin than [Union]. *)
Example is_optional_pep604 :
  is_optional (TUnionType [int; TNoneType]) = false.
Proof. reflexivity. Qed.

End TypingFacts.

(** ** The Django settings path *)

Module DjangoFacts.
Import Typing.
Import Settings.
Import Settings.DjangoCarinaDatabaseSettings.

Lemma declared_eq :
  declared =
    [ "max_connection_pool_size"; "servers"; "user_name"; "password";
      "default_space"; "auto_create_default_space_with_vid_desc";
      "model_paths"; "timezone_name" ].
Proof. reflexivity. Qed.

Lemma required_eq : required = ["user_name"; "password"].
Proof. vm_compute. reflexivity. Qed.

Lemma contains_true (kwargs : gmap string pyval) (key : string) :
  contains kwargs key = true ↔ is_Some (kwargs !! key).
Proof. unfold contains. apply bool_decide_eq_true. Qed.

Lemma contains_false (kwargs : gmap string pyval) (key : string) :
  contains kwargs key = false ↔ kwargs !! key = None.
Proof.
  unfold contains. rewrite bool_decide_eq_false, eq_None_not_Some. done.
Qed.

(** *** The loop of [__init__], over any list of annotations *)

Section loop.
Variable kwargs : gmap string pyval.

(** One iteration, spelled out. *)
Lemma init_body_unfold (self : gmap string pyval) (key : string) (type_ : ty) :
  init_body kwargs self (key, type_)
  = if must_be_given key type_ && negb (contains kwargs key)
    then Raise (AssertionError (required_msg key))
    else Ok (store kwargs self key).
Proof.
  unfold init_body, assert_.
  destruct (must_be_given key type_), (contains kwargs key); reflexivity.
Qed.

(** The loop looks at [kwargs] only under the annotated keys. *)
Lemma for_each_init_agree (kwargs' : gmap string pyval)
    (anns : list (string * ty)) (self : gmap string pyval) :
  (∀ key, key ∈ map fst anns → kwargs' !! key = kwargs !! key) →
  for_each (init_body kwargs') anns self
  = for_each (init_body kwargs) anns self.
Proof.
  revert self. induction anns as [| [key type_] anns IH]; intros self Hagree.
  - reflexivity.
  - cbn [for_each].
    assert (init_body kwargs' self (key, type_)
            = init_body kwargs self (key, type_)) as ->.
    { unfold init_body, contains, store.
      rewrite (Hagree key) by (cbn; left). reflexivity. }
    destruct (init_body kwargs self (key, type_)); cbn; [| done].
    apply IH. intros k Hk. apply Hagree. cbn. by right.
Qed.

Lemma store_lookup (self : gmap string pyval) (key k : string) :
  store kwargs self key !! k
  = if decide (key = k)
    then match kwargs !! k with
         | Some v => Some v
         | None => self !! k
         end
    else self !! k.
Proof.
  unfold store. destruct (decide (key = k)) as [-> | Hne].
  - destruct (kwargs !! k); [by rewrite lookup_insert_eq | done].
  - destruct (kwargs !! key); [by rewrite lookup_insert_ne | done].
Qed.

(** What a completed loop leaves in the instance [__dict__]. *)
Lemma for_each_init_lookup (anns : list (string * ty))
    (self inst : gmap string pyval) (k : string) :
  for_each (init_body kwargs) anns self = Ok inst →
  inst !! k = if bool_decide (k ∈ map fst anns)
              then match kwargs !! k with
                   | Some v => Some v
                   | None => self !! k
                   end
              else self !! k.
Proof.
  revert self. induction anns as [| [key type_] anns IH]; intros self.
  - cbn. intros [= <-]. reflexivity.
  - cbn [for_each]. rewrite init_body_unfold.
    destruct (must_be_given key type_ && negb (contains kwargs key));
      cbn; [discriminate |].
    intros Hrest. rewrite (IH _ Hrest), store_lookup. cbn [map fst].
    destruct (decide (key = k)) as [-> | Hne].
    + rewrite (bool_decide_eq_true_2 (k ∈ k :: map fst anns))
        by apply list_elem_of_here.
      destruct (bool_decide _); destruct (kwargs !! k); reflexivity.
    + destruct (bool_decide (k ∈ map fst anns)) eqn:Hin.
      * apply bool_decide_eq_true in Hin.
        rewrite bool_decide_eq_true_2 by (by apply list_elem_of_further).
        reflexivity.
      * apply bool_decide_eq_false in Hin.
        rewrite bool_decide_eq_false_2; [reflexivity |].
        intros [? | ?]%elem_of_cons; congruence.
Qed.

(** When the loop raises, and what. *)
Lemma for_each_init_outcome (anns : list (string * ty))
    (self : gmap string pyval) :
  match first_missing kwargs anns with
  | Some key =>
      for_each (init_body kwargs) anns self
      = Raise (AssertionError (required_msg key))
  | None => ∃ inst, for_each (init_body kwargs) anns self = Ok inst
  end.
Proof.
  revert self. induction anns as [| [key type_] anns IH]; intros self.
  - cbn. eauto.
  - cbn [for_each first_missing]. rewrite init_body_unfold.
    destruct (must_be_given key type_ && negb (contains kwargs key)); cbn.
    + reflexivity.
    + apply IH.
Qed.

Lemma first_missing_find (anns : list (string * ty)) :
  first_missing kwargs anns
  = List.find (fun key => negb (contains kwargs key))
      (map fst (List.filter (fun kt => must_be_given (fst kt) (snd kt)) anns)).
Proof.
  induction anns as [| [key type_] anns IH]; [reflexivity |].
  cbn [first_missing List.filter fst snd].
  destruct (must_be_given key type_); cbn.
  - destruct (contains kwargs key); cbn; [exact IH | reflexivity].
  - exact IH.
Qed.

End loop.

(** *** Construction *)

(** The outcome of construction is decided by the first absent required
    setting. *)
Lemma init_outcome (kwargs : gmap string pyval) :
  match first_absent kwargs with
  | Some key => __init__ kwargs = Raise (AssertionError (required_msg key))
  | None => ∃ inst, __init__ kwargs = Ok inst
  end.
Proof.
  unfold first_absent, required, __init__.
  rewrite <- first_missing_find. apply for_each_init_outcome.
Qed.

(** The constructed instance holds exactly the declared keys of [kwargs]. *)
Lemma init_lookup (kwargs inst : gmap string pyval) (k : string) :
  __init__ kwargs = Ok inst →
  inst !! k = if bool_decide (k ∈ declared) then kwargs !! k else None.
Proof.
  intros H. rewrite (for_each_init_lookup _ _ _ _ k H).
  fold declared. rewrite lookup_empty.
  destruct (bool_decide _), (kwargs !! k); reflexivity.
Qed.

(** *** The assertion message *)

Lemma prefix_app (k r : string) : String.prefix k (k ++ r) = true.
Proof.
  induction k as [| c k IH]; simpl.
  - by destruct r.
  - destruct (Ascii.ascii_dec c c); [exact IH | done].
Qed.

Lemma mentions_here (k r : string) : mentions k (k ++ r) = true.
Proof.
  pose proof (prefix_app k r) as H.
  destruct (k ++ r); unfold mentions; fold mentions; by rewrite H.
Qed.

Lemma mentions_further (k a m : string) :
  mentions k m = true → mentions k (a ++ m) = true.
Proof.
  intros H. induction a as [| c a IH]; [exact H |].
  simpl. rewrite IH. apply orb_true_r.
Qed.

Lemma required_msg_mentions (key : string) :
  mentions key (required_msg key) = true.
Proof. unfold required_msg. apply mentions_further, mentions_here. Qed.

Lemma first_absent_Some (kwargs : gmap string pyval) (key : string) :
  first_absent kwargs = Some key → key ∈ required ∧ kwargs !! key = None.
Proof.
  unfold first_absent. intros [Hin Hc]%find_some. split.
  - by apply list_elem_of_In.
  - apply contains_false. by destruct (contains kwargs key).
Qed.

Lemma first_absent_None (kwargs : gmap string pyval) :
  first_absent kwargs = None ↔ ∀ s, s ∈ required → is_Some (kwargs !! s).
Proof.
  unfold first_absent. split.
  - intros H s Hs. apply contains_true.
    apply list_elem_of_In in Hs.
    pose proof (find_none _ _ H s Hs) as Hc. cbn in Hc.
    by destruct (contains kwargs s).
  - intros H. destruct (find _ _) as [key |] eqn:E; [| done].
    apply find_some in E as [Hin Hc].
    apply list_elem_of_In, H, contains_true in Hin.
    rewrite Hin in Hc. discriminate.
Qed.

Lemma init_succeeds_iff (kwargs : gmap string pyval) :
  (∃ inst, __init__ kwargs = Ok inst)
  ↔ ∀ s, s ∈ required → is_Some (kwargs !! s).
Proof.
  rewrite <- first_absent_None. pose proof (init_outcome kwargs) as H.
  destruct (first_absent kwargs) as [key |].
  - rewrite H. split; [intros [? [=]] | discriminate].
  - split; [done | intros _; exact H].
Qed.

(** C2 (as amended). Construction fails when a setting that is neither
    Optional nor given a value in the class body ([user_name],
    [password]) is absent from the keyword arguments: it raises the
    assertion error whose message names the first absent required setting
    in declaration order, which is the absent setting itself when no other
    is absent.  When every required setting is present, construction
    succeeds. *)
Theorem init_fails_on_absent_required (kwargs : gmap string pyval) :
  required = ["user_name"; "password"]
  ∧ (∀ s, s ∈ required → kwargs !! s = None →
       ∃ k e, first_absent kwargs = Some k
              ∧ k ∈ required ∧ kwargs !! k = None
              ∧ __init__ kwargs = Raise e
              ∧ e = AssertionError (required_msg k)
              ∧ names_setting e k
              ∧ ((∀ s', s' ∈ required → s' ≠ s → is_Some (kwargs !! s'))
                 → k = s))
  ∧ ((∀ s, s ∈ required → is_Some (kwargs !! s))
     → ∃ inst, __init__ kwargs = Ok inst).
Proof.
  split; [exact required_eq |]. split.
  - intros s Hs Habs.
    pose proof (init_outcome kwargs) as Hout.
    destruct (first_absent kwargs) as [k |] eqn:Hfa.
    + destruct (first_absent_Some _ _ Hfa) as [Hk Hnone].
      exists k, (AssertionError (required_msg k)).
      repeat split; try done.
      * exists (required_msg k). split; [done | apply required_msg_mentions].
      * intros Hothers. destruct (decide (k = s)) as [| Hne]; [done |].
        destruct (Hothers k Hk Hne) as [v Hv]. congruence.
    + destruct (proj1 (first_absent_None kwargs) Hfa s Hs) as [v Hv].
      congruence.
  - intros Hall. by apply init_succeeds_iff.
Qed.

Lemma init_fails_on_absent_required_witness :
  (∃ e, __init__ {[ "password" := VStr "secret" ]} = Raise e
        ∧ names_setting e "user_name")
  ∧ (∃ inst, __init__ {[ "user_name" := VStr "root";
                         "password" := VStr "secret" ]} = Ok inst).
Proof.
  split.
  - destruct (init_fails_on_absent_required {[ "password" := VStr "secret" ]})
      as (_ & Hfail & _).
    destruct (Hfail "user_name") as (k & e & Hfa & _ & _ & Hr & _ & Hn & _).
    + apply list_elem_of_In. vm_compute. left. reflexivity.
    + vm_compute. reflexivity.
    + vm_compute in Hfa. injection Hfa as <-. exists e. split; assumption.
  - destruct (init_fails_on_absent_required
                {[ "user_name" := VStr "root"; "password" := VStr "secret" ]})
      as (_ & _ & Hok).
    apply Hok. intros s Hs. apply list_elem_of_In in Hs. vm_compute in Hs.
    destruct Hs as [<- | [<- | []]]; vm_compute; eexists; reflexivity.
Defined.

(** With both required settings absent, [password] is absent and yet the
    error raised does not name it: the message names [user_name]. *)
Lemma init_names_first_absent_only :
  "password" ∈ required
  ∧ (∅ : gmap string pyval) !! "password" = None
  ∧ ∃ e, __init__ ∅ = Raise e
         ∧ e = AssertionError (required_msg "user_name")
         ∧ ¬ names_setting e "password".
Proof.
  split; [apply list_elem_of_In; vm_compute; tauto |].
  split; [reflexivity |].
  exists (AssertionError (required_msg "user_name")).
  split; [vm_compute; reflexivity |]. split; [reflexivity |].
  intros (msg & [= <-] & Hm). vm_compute in Hm. discriminate Hm.
Qed.

(** C9. A keyword argument whose key is not a declared setting changes
    nothing: construction has the same outcome with and without it, and
    the instance it builds has no attribute of that name set, its declared
    attributes being those of the keyword arguments. *)
Theorem init_ignores_undeclared_key (kwargs : gmap string pyval)
    (key : string) (v : pyval) :
  key ∉ declared →
  __init__ (<[key := v]> kwargs) = __init__ kwargs
  ∧ (∀ inst, __init__ (<[key := v]> kwargs) = Ok inst →
       inst !! key = None
       ∧ ∀ k, k ∈ declared → inst !! k = kwargs !! k).
Proof.
  intros Hkey. split.
  - unfold __init__. apply for_each_init_agree. intros k Hk.
    apply lookup_insert_ne. intros ->. exact (Hkey Hk).
  - intros inst Hinst. split.
    + rewrite (init_lookup _ _ key Hinst).
      by rewrite bool_decide_eq_false_2.
    + intros k Hk. rewrite (init_lookup _ _ k Hinst).
      rewrite bool_decide_eq_true_2 by done.
      apply lookup_insert_ne. intros ->. exact (Hkey Hk).
Qed.

Lemma init_ignores_undeclared_key_witness :
  __init__ (<["debug" := VBool true]>
              {[ "user_name" := VStr "root"; "password" := VStr "secret" ]})
  = __init__ {[ "user_name" := VStr "root"; "password" := VStr "secret" ]}
  ∧ ∃ inst,
      __init__ (<["debug" := VBool true]>
                  {[ "user_name" := VStr "root";
                     "password" := VStr "secret" ]}) = Ok inst
      ∧ inst !! "debug" = None
      ∧ inst !! "user_name" = Some (VStr "root").
Proof.
  destruct (init_ignores_undeclared_key
              {[ "user_name" := VStr "root"; "password" := VStr "secret" ]}
              "debug" (VBool true)) as [Heq Hinst].
  - intros Hin. apply list_elem_of_In in Hin. vm_compute in Hin.
    repeat (destruct Hin as [Hin | Hin]; [discriminate Hin |]).
    destruct Hin.
  - split; [exact Heq |].
    destruct (proj2 (init_succeeds_iff
                (<["debug" := VBool true]>
                   {[ "user_name" := VStr "root";
                      "password" := VStr "secret" ]}))) as [inst Hok].
    + intros s Hs. apply list_elem_of_In in Hs. vm_compute in Hs.
      destruct Hs as [<- | [<- | []]]; vm_compute; eexists; reflexivity.
    + exists inst. destruct (Hinst inst Hok) as [Hnone Hdecl].
      split; [exact Hok |]. split; [exact Hnone |].
      rewrite Hdecl; [reflexivity |].
      apply list_elem_of_In. vm_compute. tauto.
Defined.

(** C10. A declared setting present in the keyword arguments is stored on
    the instance as given, whatever kind of value it is: the stored value
    is the supplied one, and construction accepts it as soon as the
    required settings are present. *)
Theorem init_stores_value_as_given (kwargs : gmap string pyval)
    (key : string) (v : pyval) :
  key ∈ declared →
  kwargs !! key = Some v →
  (∀ inst, __init__ kwargs = Ok inst →
     inst !! key = Some v ∧ getattr inst key = Some v)
  ∧ ((∀ s, s ∈ required → is_Some (kwargs !! s)) →
     ∃ inst, __init__ kwargs = Ok inst ∧ inst !! key = Some v).
Proof.
  intros Hkey Hv.
  assert (∀ inst, __init__ kwargs = Ok inst → inst !! key = Some v) as Hst.
  { intros inst Hinst. rewrite (init_lookup _ _ key Hinst).
    by rewrite bool_decide_eq_true_2. }
  split.
  - intros inst Hinst. split; [by apply Hst |].
    unfold getattr. by rewrite (Hst inst Hinst).
  - intros Hall. apply init_succeeds_iff in Hall as [inst Hinst].
    exists inst. split; [done | by apply Hst].
Qed.

Lemma init_stores_value_as_given_witness :
  ∃ inst,
    __init__ {[ "user_name" := VStr "root"; "password" := VStr "secret";
                "max_connection_pool_size" := VStr "ten" ]} = Ok inst
    ∧ inst !! "max_connection_pool_size" = Some (VStr "ten").
Proof.
  destruct (init_stores_value_as_given
              {[ "user_name" := VStr "root"; "password" := VStr "secret";
                 "max_connection_pool_size" := VStr "ten" ]}
              "max_connection_pool_size" (VStr "ten")) as [_ Hacc].
  - apply list_elem_of_In. vm_compute. tauto.
  - vm_compute. reflexivity.
  - apply Hacc. intros s Hs. apply list_elem_of_In in Hs. vm_compute in Hs.
    destruct Hs as [<- | [<- | []]]; vm_compute; eexists; reflexivity.
Defined.

End DjangoFacts.

(** ** The pydantic settings path *)

Module PydanticFacts.
Import Typing.
Import Settings.
Import Settings.DatabaseSettings.

Lemma pd_declared_nodup : NoDup declared.
Proof. apply (bool_decide_unpack _). vm_compute. reflexivity. Qed.

Section loop.
Variable sources : gmap string pyval.

Lemma pd_init_body_supplied (self : gmap string pyval) (f : field) :
  init_body sources self f
  = match supplied sources f with
    | Some v => Ok (<[f_name f := v]> self)
    | None => Raise (ValidationError (f_name f))
    end.
Proof.
  unfold init_body, supplied.
  destruct (sources !! _); [reflexivity |]. by destruct (f_default f).
Qed.

Lemma pd_for_each_lookup_other (fs : list field)
    (self inst : gmap string pyval) (k : string) :
  for_each (init_body sources) fs self = Ok inst →
  k ∉ map f_name fs →
  inst !! k = self !! k.
Proof.
  revert self. induction fs as [| f fs IH]; intros self.
  - cbn. by intros [= <-].
  - cbn [for_each]. rewrite pd_init_body_supplied.
    destruct (supplied sources f) as [v |]; cbn; [| discriminate].
    intros Hrest Hk. cbn in Hk. apply not_elem_of_cons in Hk as [Hne Hk].
    rewrite (IH _ Hrest Hk). by apply lookup_insert_ne.
Qed.

Lemma pd_for_each_lookup (fs : list field)
    (self inst : gmap string pyval) (f : field) :
  for_each (init_body sources) fs self = Ok inst →
  NoDup (map f_name fs) →
  f ∈ fs →
  inst !! f_name f = supplied sources f.
Proof.
  revert self. induction fs as [| g fs IH]; intros self.
  - intros _ _ Hin. by apply elem_of_nil in Hin.
  - cbn [for_each]. rewrite pd_init_body_supplied.
    destruct (supplied sources g) as [v |] eqn:Hg; cbn; [| discriminate].
    intros Hrest Hnd Hin. cbn in Hnd. apply NoDup_cons in Hnd as [Hfresh Hnd].
    apply elem_of_cons in Hin as [-> | Hin].
    + rewrite (pd_for_each_lookup_other _ _ _ _ Hrest Hfresh).
      by rewrite lookup_insert_eq.
    + by apply (IH _ Hrest Hnd).
Qed.

(** Every field with a default makes the loop complete. *)
Lemma pd_for_each_total (fs : list field) (self : gmap string pyval) :
  Forall (fun f => is_Some (f_default f)) fs →
  ∃ inst, for_each (init_body sources) fs self = Ok inst.
Proof.
  revert self. induction fs as [| f fs IH]; intros self Hall.
  - cbn. eauto.
  - apply Forall_cons in Hall as [[d Hd] Hall].
    cbn [for_each]. rewrite pd_init_body_supplied. unfold supplied.
    rewrite Hd. destruct (sources !! _); cbn; by apply IH.
Qed.

End loop.

Lemma all_fields_defaulted :
  Forall (fun f => is_Some (f_default f)) model_fields.
Proof. unfold model_fields. repeat constructor; cbn; eauto. Qed.

(** [DatabaseSettings()] always completes. *)
Lemma pd_init_total (sources : gmap string pyval) :
  ∃ inst, __init__ sources = Ok inst.
Proof. apply pd_for_each_total, all_fields_defaulted. Qed.

Lemma pd_init_lookup (sources inst : gmap string pyval) (f : field) :
  __init__ sources = Ok inst →
  f ∈ model_fields →
  getattr inst (f_name f) = supplied sources f.
Proof.
  intros H Hin. unfold getattr.
  apply (pd_for_each_lookup _ _ _ _ _ H); [apply pd_declared_nodup | done].
Qed.

End PydanticFacts.

(** ** The two paths side by side *)

Module PathsFacts.
Import Typing.
Import Settings.
Module Dj := Settings.DjangoCarinaDatabaseSettings.
Module Pd := Settings.DatabaseSettings.

Definition auto_create : string := "auto_create_default_space_with_vid_desc".

Ltac each_declared H :=
  rewrite DjangoFacts.declared_eq in H;
  repeat (apply elem_of_cons in H as [-> | H]);
  [.. | by apply elem_of_nil in H].

Lemma same_declared : Dj.declared = Pd.declared.
Proof. reflexivity. Qed.

Lemma dj_status_declared (key : string) (st : field_status) :
  Dj.status key = Some st → key ∈ Dj.declared.
Proof.
  unfold Dj.status.
  destruct (find _ _) as [[k t] |] eqn:E; [| discriminate].
  intros _. apply find_some in E as [Hin Heq]. cbn in Heq.
  apply String.eqb_eq in Heq as <-.
  apply list_elem_of_In, in_map_iff. by exists (k, t).
Qed.

(** What each status means for the object the Django path builds. *)
Lemma dj_status_Required (key : string) (kwargs : gmap string pyval) :
  Dj.status key = Some Required →
  kwargs !! key = None →
  ∃ e, Dj.__init__ kwargs = Raise e.
Proof.
  intros Hst Habs. assert (key ∈ Dj.required) as Hreq.
  { pose proof (dj_status_declared _ _ Hst) as Hd.
    rewrite DjangoFacts.required_eq.
    each_declared Hd; vm_compute in Hst; try discriminate Hst;
      apply list_elem_of_In; cbn; tauto. }
  destruct (Dj.__init__ kwargs) as [inst | e] eqn:E; [| by exists e].
  assert (∃ i, Dj.__init__ kwargs = Ok i) as Hok by eauto.
  destruct (proj1 (DjangoFacts.init_succeeds_iff kwargs) Hok key Hreq)
    as [v Hv].
  congruence.
Qed.

Lemma dj_status_class_dict (key : string) (st : field_status) :
  Dj.status key = Some st →
  match st with
  | Defaulted v => Dj.class_dict !! key = Some v
  | Required | Unset => Dj.class_dict !! key = None
  end.
Proof.
  unfold Dj.status. destruct (find _ _) as [[k t] |]; [| discriminate].
  destruct (Dj.class_dict !! key) as [v |].
  - by intros [= <-].
  - destruct (Dj.is_optional t); by intros [= <-].
Qed.

Lemma dj_status_Defaulted (key : string) (v : pyval)
    (kwargs inst : gmap string pyval) :
  Dj.status key = Some (Defaulted v) →
  kwargs !! key = None →
  Dj.__init__ kwargs = Ok inst →
  Dj.getattr inst key = Some v.
Proof.
  intros Hst Habs Hinst. unfold Dj.getattr.
  rewrite (DjangoFacts.init_lookup _ _ key Hinst), Habs.
  destruct (bool_decide _); exact (dj_status_class_dict _ _ Hst).
Qed.

Lemma dj_status_Unset (key : string) (kwargs inst : gmap string pyval) :
  Dj.status key = Some Unset →
  kwargs !! key = None →
  Dj.__init__ kwargs = Ok inst →
  inst !! key = None ∧ Dj.getattr inst key = None.
Proof.
  intros Hst Habs Hinst. unfold Dj.getattr.
  rewrite (DjangoFacts.init_lookup _ _ key Hinst), Habs.
  destruct (bool_decide _); (split; [done |]);
    exact (dj_status_class_dict _ _ Hst).
Qed.

(** What a default means for the object the pydantic path builds. *)
Lemma pd_status_Defaulted (key : string) (v : pyval)
    (sources inst : gmap string pyval) :
  Pd.status key = Some (Defaulted v) →
  sources !! (Pd.env_prefix ++ key) = None →
  Pd.__init__ sources = Ok inst →
  Pd.getattr inst key = Some v.
Proof.
  unfold Pd.status.
  destruct (find _ _) as [f |] eqn:E; [| discriminate].
  apply find_some in E as [Hin Heq]. apply String.eqb_eq in Heq as <-.
  destruct (Pd.f_default f) as [d |] eqn:Hd; intros [= <-] Habs Hinst.
  rewrite (PydanticFacts.pd_init_lookup _ _ f Hinst)
    by (by apply list_elem_of_In).
  unfold Pd.supplied. by rewrite Habs.
Qed.

Ltac not_listed H :=
  apply list_elem_of_In in H; cbn in H;
  repeat (destruct H as [H | H]; [discriminate H |]); destruct H.

(** The paths give [servers] different defaults, and the objects they
    build when nothing is supplied for [servers] read differently. *)
Lemma paths_differ_on_servers :
  "servers" ∈ Dj.declared ∧ "servers" ∈ Pd.declared
  ∧ Dj.status "servers" = Some (Defaulted (VSet ∅))
  ∧ Pd.status "servers" = Some (Defaulted (VSet {["101.35.211.56:9669"]}))
  ∧ Dj.status "servers" ≠ Pd.status "servers"
  ∧ ∃ dj pd,
      Dj.__init__ {[ "user_name" := VStr "root";
                     "password" := VStr "rkRK123@" ]} = Ok dj
      ∧ Pd.__init__ ∅ = Ok pd
      ∧ Dj.getattr dj "servers" = Some (VSet ∅)
      ∧ Pd.getattr pd "servers" = Some (VSet {["101.35.211.56:9669"]})
      ∧ Dj.getattr dj "servers" ≠ Pd.getattr pd "servers".
Proof.
  repeat split; try (apply list_elem_of_In; cbn; tauto).
  - intros H. vm_compute in H. discriminate H.
  - destruct (proj2 (DjangoFacts.init_succeeds_iff
                {[ "user_name" := VStr "root";
                   "password" := VStr "rkRK123@" ]})) as [dj Hdj].
    { intros s Hs. apply list_elem_of_In in Hs. vm_compute in Hs.
      destruct Hs as [<- | [<- | []]]; vm_compute; eexists; reflexivity. }
    destruct (PydanticFacts.pd_init_total ∅) as [pd Hpd].
    exists dj, pd.
    assert (Dj.getattr dj "servers" = Some (VSet ∅)) as Hs1
      by exact (dj_status_Defaulted "servers" (VSet ∅)
                  {[ "user_name" := VStr "root";
                     "password" := VStr "rkRK123@" ]} dj
                  eq_refl eq_refl Hdj).
    assert (Pd.getattr pd "servers"
            = Some (VSet {["101.35.211.56:9669"]})) as Hs2
      by exact (pd_status_Defaulted "servers"
                  (VSet {["101.35.211.56:9669"]}) ∅ pd eq_refl eq_refl Hpd).
    repeat split; try done.
    rewrite Hs1, Hs2. intros H. vm_compute in H. discriminate H.
Qed.

(** The other three fields on which the paths differ. *)
Lemma paths_differ_on_credentials_and_auto_create :
  Dj.status "user_name" = Some Required
  ∧ Pd.status "user_name" = Some (Defaulted (VStr "root"))
  ∧ Dj.status "password" = Some Required
  ∧ Pd.status "password" = Some (Defaulted (VStr "rkRK123@"))
  ∧ Dj.status auto_create = Some Unset
  ∧ Pd.status auto_create = Some (Defaulted VNone).
Proof. repeat split. Qed.

(** C1 (as amended). Both paths declare the same fields, and they give a
    field the same required-or-defaulted status and default value exactly
    when it is one of [max_connection_pool_size], [default_space],
    [model_paths] and [timezone_name]; in particular [default_space]
    defaults to ["main"] on both. *)
Theorem paths_agree_exactly_on_four_fields :
  Dj.declared = Pd.declared
  ∧ (∀ key, key ∈ Dj.declared →
       (Dj.status key = Pd.status key ↔ key ∈ agreeing_fields))
  ∧ Dj.status "default_space" = Some (Defaulted (VStr "main"))
  ∧ Pd.status "default_space" = Some (Defaulted (VStr "main")).
Proof.
  split; [reflexivity |]. split; [| split; reflexivity].
  intros key Hkey. unfold agreeing_fields.
  each_declared Hkey; split; intros H;
    first [ by (apply list_elem_of_In; cbn; tauto)
          | by (vm_compute; reflexivity)
          | by (exfalso; vm_compute in H; discriminate H)
          | by (exfalso; not_listed H) ].
Qed.

(** C4. Every capability of the connection configuration is a declared,
    annotated field on both paths: the pool size bound (an [int]), the
    server addresses (a [Set[str]]), the credentials, the default space
    name, the auto-creation directive (an [Optional[str]]) and the time
    zone name. *)
Theorem both_paths_declare_connection_config :
  Forall (fun name => name ∈ Dj.declared ∧ name ∈ Pd.declared
                      ∧ is_Some (Dj.annotation_of name)
                      ∧ is_Some (Pd.annotation_of name))
    connection_config_fields
  ∧ Dj.annotation_of "max_connection_pool_size" = Some int
  ∧ Pd.annotation_of "max_connection_pool_size" = Some int
  ∧ Dj.annotation_of "servers" = Some (Set_ str)
  ∧ Pd.annotation_of "servers" = Some (Set_ str)
  ∧ Dj.annotation_of auto_create = Some (Optional str)
  ∧ Pd.annotation_of auto_create = Some (Optional str).
Proof.
  split; [| repeat split].
  unfold connection_config_fields.
  repeat (apply Forall_cons; split;
          [ repeat split; try (apply list_elem_of_In; cbn; tauto);
            vm_compute; eexists; reflexivity |]).
  apply Forall_nil. done.
Qed.

(** C8. On the Django path the Optional setting without a class-level
    value, when absent from the keyword arguments, is left unset: the
    instance [__dict__] has no entry for it and reading the attribute
    fails.  On the other path the same field, when no source supplies it,
    reads [None]. *)
Theorem optional_setting_left_unset_on_django_path :
  Dj.annotation_of auto_create = Some (Optional str)
  ∧ Dj.is_optional (Optional str) = true
  ∧ Dj.class_dict !! auto_create = None
  ∧ (∀ kwargs inst,
       kwargs !! auto_create = None →
       Dj.__init__ kwargs = Ok inst →
       inst !! auto_create = None ∧ Dj.getattr inst auto_create = None)
  ∧ (∃ kwargs inst,
       kwargs !! auto_create = None ∧ Dj.__init__ kwargs = Ok inst)
  ∧ (∀ sources inst,
       sources !! (Pd.env_prefix ++ auto_create) = None →
       Pd.__init__ sources = Ok inst →
       Pd.getattr inst auto_create = Some VNone)
  ∧ (∃ inst, Pd.__init__ ∅ = Ok inst).
Proof.
  split; [reflexivity |]. split; [reflexivity |].
  split; [vm_compute; reflexivity |]. split; [| split; [| split]].
  - intros kwargs inst. by apply dj_status_Unset.
  - exists {[ "user_name" := VStr "root"; "password" := VStr "secret" ]}.
    destruct (proj2 (DjangoFacts.init_succeeds_iff
                {[ "user_name" := VStr "root";
                   "password" := VStr "secret" ]})) as [inst Hinst].
    + intros s Hs. apply list_elem_of_In in Hs. vm_compute in Hs.
      destruct Hs as [<- | [<- | []]]; vm_compute; eexists; reflexivity.
    + exists inst. split; [vm_compute; reflexivity | exact Hinst].
  - intros sources inst. by apply pd_status_Defaulted.
  - apply PydanticFacts.pd_init_total.
Qed.

End PathsFacts.

(** ** Literals of the data types *)

Module DataTypesFacts.
Import DataTypes.

(** *** Strings *)

Lemma unquote_body_escape (s : string) :
  unquote_body (escape s ++ String dquote EmptyString) = Some s.
Proof.
  induction s as [| c s IH]; [reflexivity |].
  cbn [escape]. unfold needs_escape.
  destruct (Ascii.eqb c dquote) eqn:Hq.
  - apply Ascii.eqb_eq in Hq as ->. simpl. by rewrite IH.
  - destruct (Ascii.eqb c backslash) eqn:Hb.
    + apply Ascii.eqb_eq in Hb as ->. simpl. by rewrite IH.
    + simpl. rewrite Hq, Hb, IH. reflexivity.
Qed.

Lemma unquote_quote (s : string) : unquote (quote s) = Some s.
Proof. unfold unquote, quote. simpl. apply unquote_body_escape. Qed.

(** *** Integers *)

Lemma parse_int_literal (n : Z) : parse_int (int_literal n) = Some n.
Proof.
  unfold parse_int, int_literal. rewrite NilZero.isi.
  - cbn. by rewrite DecimalZ.of_to.
  - destruct n; cbn; try discriminate.
    intros [= H]. by apply DecimalPos.Unsigned.to_uint_nonnil in H.
  - destruct n; cbn; try discriminate.
    intros [= H]. by apply DecimalPos.Unsigned.to_uint_nonnil in H.
Qed.

(** *** Dates *)

Ltac euclid := Z.to_euclidean_division_equations; lia.

Lemma digit_val_digit (k : Z) :
  (0 <= k <= 9)%Z → digit_val (digit k) = Some k.
Proof.
  intros Hk.
  assert (k = 0 ∨ k = 1 ∨ k = 2 ∨ k = 3 ∨ k = 4 ∨ k = 5 ∨ k = 6 ∨ k = 7
          ∨ k = 8 ∨ k = 9)%Z as Hcases by lia.
  repeat (destruct Hcases as [-> | Hcases]; [reflexivity |]).
  by subst.
Qed.

Lemma num2_digits (n : Z) :
  (0 <= n <= 99)%Z → num2 (digit (n / 10)) (digit (n mod 10)) = Some n.
Proof.
  intros Hn. unfold num2.
  pose proof (Z.div_mod n 10 ltac:(lia)) as Hdm.
  pose proof (Z.mod_pos_bound n 10 ltac:(lia)) as Hmod.
  rewrite !digit_val_digit by lia.
  change (Some (10 * (n / 10) + n mod 10)%Z = Some n). f_equal. lia.
Qed.

Lemma num4_digits (n : Z) :
  (0 <= n <= 9999)%Z →
  num4 (digit (n / 1000)) (digit (n / 100 mod 10))
       (digit (n / 10 mod 10)) (digit (n mod 10)) = Some n.
Proof.
  intros Hn. unfold num4.
  assert (n / 1000 = (n / 100) / 10)%Z as -> by euclid.
  assert (n mod 10 = (n mod 100) mod 10)%Z as -> by euclid.
  assert (n / 10 mod 10 = (n mod 100) / 10)%Z as -> by euclid.
  pose proof (Z.div_mod n 100 ltac:(lia)) as Hdm.
  pose proof (Z.mod_pos_bound n 100 ltac:(lia)) as Hmod.
  rewrite (num2_digits (n / 100)) by lia.
  rewrite (num2_digits (n mod 100)) by lia.
  change (Some (100 * (n / 100) + n mod 100)%Z = Some n). f_equal. lia.
Qed.

Lemma valid_date_bounds (y m d : Z) :
  valid_date y m d = true →
  (1 <= y <= 9999 ∧ 1 <= m <= 12 ∧ 1 <= d <= 31)%Z.
Proof.
  unfold valid_date, days_in_month. intros H.
  repeat (apply andb_true_iff in H as [H ?]).
  repeat match goal with
         | |- context [if ?b then _ else _] => destruct b
         | Hc : context [if ?b then _ else _] |- _ => destruct b
         end; lia.
Qed.

Lemma parse_date_chars (y1 y2 y3 y4 m1 m2 d1 d2 : ascii) :
  parse_date
    ("date("
     ++ String dquote
          (String y1 (String y2 (String y3 (String y4 (String "-"
             (String m1 (String m2 (String "-"
                (String d1 (String d2 (String dquote ")"))))))))))))
  = (y ← num4 y1 y2 y3 y4; m ← num2 m1 m2; d ← num2 d1 d2;
     Some (VDate y m d)).
Proof. reflexivity. Qed.

Lemma parse_date_literal (y m d : Z) :
  (0 <= y <= 9999)%Z → (0 <= m <= 99)%Z → (0 <= d <= 99)%Z →
  parse_date (date_literal y m d) = Some (VDate y m d).
Proof.
  intros Hy Hm Hd. unfold date_literal, isoformat, pad4, pad2.
  rewrite parse_date_chars.
  rewrite num4_digits, !num2_digits by done. reflexivity.
Qed.

(** *** Booleans *)

Lemma parse_bool_literal (b : bool) : parse_bool (bool_literal b) = Some b.
Proof. by destruct b. Qed.

(** *** The round-trip law *)

(** [value2db_str] is defined on every value the descriptor accepts. *)
Lemma value2db_str_total (t : data_type) (v : pyval) :
  validate t v = true → is_Some (value2db_str t v).
Proof.
  destruct t, v; cbn; intros H; try discriminate H; eauto.
Qed.

(** On the descriptors of this catalogue, the literal of an accepted
    value reads back as the same value; the Date type renders 2023-01-01
    as [date("2023-01-01")]. *)
Lemma literal_round_trip :
  (∀ t v, validate t v = true →
     ∃ lit, value2db_str t v = Some lit ∧ parse_literal t lit = Some v)
  ∧ validate Date (VDate 2023 1 1) = true
  ∧ value2db_str Date (VDate 2023 1 1) = Some date_2023_01_01_literal.
Proof.
  split; [| split; reflexivity].
  intros t v Hv.
  destruct t, v; cbn in Hv; try discriminate Hv; cbn [value2db_str int_bits];
    eexists; (split; [reflexivity |]); cbn [parse_literal];
    rewrite ?unquote_quote, ?parse_int_literal, ?parse_bool_literal;
    try reflexivity.
  apply valid_date_bounds in Hv. apply parse_date_literal; lia.
Qed.

(** C6. The boolean type writes [True] as [true] and [False] as [false]:
    lowercase tokens without quotes. *)
Theorem bool_literal_is_lowercase_token :
  (∀ b, validate Bool (VBool b) = true
        ∧ ∃ lit, value2db_str Bool (VBool b) = Some lit
                 ∧ unquoted lit = true ∧ lowercase_token lit = true
                 ∧ parse_literal Bool lit = Some (VBool b))
  ∧ value2db_str Bool (VBool true) = Some "true"
  ∧ value2db_str Bool (VBool false) = Some "false".
Proof.
  split; [| split; reflexivity].
  intros [|]; (split; [reflexivity |]); eexists; repeat split.
Qed.

(** The literals the compatibility test compares against. *)
Example string_literal_hello :
  value2db_str String_ (VStr "hello")
  = Some (String dquote ("hello" ++ String dquote EmptyString)).
Proof. reflexivity. Qed.

Example int16_literal_42 : value2db_str Int16 (VInt 42) = Some "42".
Proof. reflexivity. Qed.

Example int16_rejects_70000 :
  validate Int16 (VInt 70000) = false ∧ validate Int16 (VInt 42) = true.
Proof. split; reflexivity. Qed.

Example string_with_quote_round_trip :
  parse_literal String_ (quote (String dquote (String backslash "a")))
  = Some (VStr (String dquote (String backslash "a"))).
Proof. reflexivity. Qed.

End DataTypesFacts.

(** ** More on the Django settings object *)

Module DjangoObjectFacts.
Import Typing.
Import Settings.
Import Settings.DjangoCarinaDatabaseSettings.

Lemma required_declared (s : string) : s ∈ required → s ∈ declared.
Proof.
  rewrite DjangoFacts.required_eq, DjangoFacts.declared_eq.
  intros H. repeat (apply elem_of_cons in H as [-> | H]);
    [.. | by apply elem_of_nil in H]; apply list_elem_of_In; cbn; tauto.
Qed.

(** The instance [__dict__] of a constructed object is the keyword
    arguments cut down to the declared settings: nothing else is set, and
    no class-level default is copied onto the instance. *)
Theorem init_instance_is_restriction (kwargs inst : gmap string pyval) :
  __init__ kwargs = Ok inst →
  inst = filter (fun kv => kv.1 ∈ declared) kwargs.
Proof.
  intros Hinst. apply map_eq. intros k.
  rewrite (DjangoFacts.init_lookup _ _ k Hinst).
  apply option_eq. intros v. rewrite map_lookup_filter_Some. cbn.
  destruct (decide (k ∈ declared)) as [Hd | Hd].
  - rewrite bool_decide_eq_true_2 by done. tauto.
  - rewrite bool_decide_eq_false_2 by done.
    split; [discriminate | tauto].
Qed.

Lemma init_instance_is_restriction_witness :
  ∃ inst,
    __init__ {[ "user_name" := VStr "root"; "password" := VStr "secret";
                "debug" := VBool true ]} = Ok inst
    ∧ inst = filter (fun kv => kv.1 ∈ declared)
               {[ "user_name" := VStr "root"; "password" := VStr "secret";
                  "debug" := VBool true ]}.
Proof.
  destruct (proj2 (DjangoFacts.init_succeeds_iff
              {[ "user_name" := VStr "root"; "password" := VStr "secret";
                 "debug" := VBool true ]})) as [inst Hinst].
  - intros s Hs. apply list_elem_of_In in Hs. vm_compute in Hs.
    destruct Hs as [<- | [<- | []]]; vm_compute; eexists; reflexivity.
  - exists inst. split; [exact Hinst |].
    exact (init_instance_is_restriction _ _ Hinst).
Defined.

(** Reading an attribute of a constructed object under a name that does
    not begin with two underscores: a declared setting given as a keyword
    argument reads as given; every other such name reads from the class,
    so an absent setting reads its class-level default or fails when
    there is none, and a keyword argument that is not a declared setting
    never shadows a class attribute. *)
Theorem getattr_after_init (kwargs inst : gmap string pyval) (name : string) :
  is_dunder name = false →
  __init__ kwargs = Ok inst →
  getattr inst name
  = match kwargs !! name with
    | Some v => if bool_decide (name ∈ declared) then Some v
                else class_dict !! name
    | None => class_dict !! name
    end.
Proof.
  intros _ Hinst. unfold getattr.
  rewrite (DjangoFacts.init_lookup _ _ name Hinst).
  destruct (bool_decide (name ∈ declared)), (kwargs !! name); reflexivity.
Qed.

Lemma getattr_after_init_witness :
  ∃ inst,
    __init__ {[ "user_name" := VStr "root"; "password" := VStr "secret";
                "timezone_name" := VStr "Asia/Shanghai";
                "is_optional" := VInt 0 ]} = Ok inst
    ∧ getattr inst "timezone_name" = Some (VStr "Asia/Shanghai")
    ∧ getattr inst "servers" = Some (VSet ∅)
    ∧ getattr inst "default_space" = Some (VStr "main")
    ∧ getattr inst "auto_create_default_space_with_vid_desc" = None
    ∧ getattr inst "is_optional"
      = Some (VCallable "DjangoCarinaDatabaseSettings.is_optional").
Proof.
  destruct (proj2 (DjangoFacts.init_succeeds_iff
              {[ "user_name" := VStr "root"; "password" := VStr "secret";
                 "timezone_name" := VStr "Asia/Shanghai";
                 "is_optional" := VInt 0 ]})) as [inst Hinst].
  - intros s Hs. apply list_elem_of_In in Hs. vm_compute in Hs.
    destruct Hs as [<- | [<- | []]]; vm_compute; eexists; reflexivity.
  - exists inst. split; [exact Hinst |].
    rewrite (getattr_after_init _ _ "timezone_name" eq_refl Hinst).
    rewrite (getattr_after_init _ _ "servers" eq_refl Hinst).
    rewrite (getattr_after_init _ _ "default_space" eq_refl Hinst).
    rewrite (getattr_after_init _ _
               "auto_create_default_space_with_vid_desc" eq_refl Hinst).
    rewrite (getattr_after_init _ _ "is_optional" eq_refl Hinst).
    repeat split; vm_compute; reflexivity.
Defined.

Lemma first_absent_cases (kwargs : gmap string pyval) :
  first_absent kwargs
  = if contains kwargs "user_name"
    then if contains kwargs "password" then None else Some "password"
    else Some "user_name".
Proof.
  unfold first_absent. rewrite DjangoFacts.required_eq. cbn [find].
  by destruct (contains kwargs "user_name"), (contains kwargs "password").
Qed.

(** Whatever construction raises is the assertion failure of a required
    setting that is really absent, every required setting declared before
    it being present: [user_name] when it is absent, [password] only when
    [user_name] is present. *)
Theorem init_error_is_sound (kwargs : gmap string pyval) (e : exn) :
  __init__ kwargs = Raise e →
  (e = AssertionError (required_msg "user_name")
   ∧ kwargs !! "user_name" = None)
  ∨ (e = AssertionError (required_msg "password")
     ∧ is_Some (kwargs !! "user_name")
     ∧ kwargs !! "password" = None).
Proof.
  intros Hraise. pose proof (DjangoFacts.init_outcome kwargs) as Hout.
  rewrite first_absent_cases in Hout.
  destruct (contains kwargs "user_name") eqn:Hu.
  - destruct (contains kwargs "password") eqn:Hp.
    + destruct Hout as [inst Hinst]. rewrite Hraise in Hinst.
      discriminate Hinst.
    + right. rewrite Hraise in Hout. injection Hout as ->.
      split; [done |]. split.
      * by apply DjangoFacts.contains_true.
      * by apply DjangoFacts.contains_false.
  - left. rewrite Hraise in Hout. injection Hout as ->.
    split; [done | by apply DjangoFacts.contains_false].
Qed.

Lemma init_error_is_sound_witness :
  __init__ {[ "user_name" := VStr "root" ]}
  = Raise (AssertionError (required_msg "password"))
  ∧ ({[ "user_name" := VStr "root" ]} : gmap string pyval) !! "password"
    = None.
Proof.
  assert (__init__ {[ "user_name" := VStr "root" ]}
          = Raise (AssertionError (required_msg "password"))) as Hr
    by (vm_compute; reflexivity).
  destruct (init_error_is_sound _ _ Hr) as [[Hu _] | (_ & _ & Hp)].
  - vm_compute in Hu. discriminate Hu.
  - split; [exact Hr | exact Hp].
Defined.

(** Whether construction succeeds depends on which keys are given, not on
    their values, and giving more keys never turns a success into a
    failure. *)
Theorem init_success_is_monotone (kwargs kwargs' : gmap string pyval)
    (inst : gmap string pyval) :
  dom kwargs ⊆ dom kwargs' →
  __init__ kwargs = Ok inst →
  ∃ inst', __init__ kwargs' = Ok inst' ∧ dom inst ⊆ dom inst'.
Proof.
  intros Hsub Hinst.
  assert (∃ i, __init__ kwargs = Ok i) as Hok by eauto.
  pose proof (proj1 (DjangoFacts.init_succeeds_iff kwargs) Hok) as Hall.
  destruct (proj2 (DjangoFacts.init_succeeds_iff kwargs')) as [inst' Hinst'].
  { intros s Hs. apply elem_of_dom, Hsub, elem_of_dom. by apply Hall. }
  exists inst'. split; [done |].
  intros k Hk. apply elem_of_dom in Hk as [v Hv]. apply elem_of_dom.
  rewrite (DjangoFacts.init_lookup _ _ k Hinst) in Hv.
  rewrite (DjangoFacts.init_lookup _ _ k Hinst').
  destruct (bool_decide (k ∈ declared)); [| discriminate Hv].
  apply elem_of_dom, Hsub, elem_of_dom. eauto.
Qed.

Lemma init_success_is_monotone_witness :
  ∃ inst',
    __init__ {[ "user_name" := VNone; "password" := VInt 7;
                "servers" := VStr "localhost" ]} = Ok inst'.
Proof.
  destruct (proj2 (DjangoFacts.init_succeeds_iff
              {[ "user_name" := VStr "root"; "password" := VStr "secret" ]}))
    as [inst Hinst].
  - intros s Hs. apply list_elem_of_In in Hs. vm_compute in Hs.
    destruct Hs as [<- | [<- | []]]; vm_compute; eexists; reflexivity.
  - destruct (init_success_is_monotone
                {[ "user_name" := VStr "root"; "password" := VStr "secret" ]}
                {[ "user_name" := VNone; "password" := VInt 7;
                   "servers" := VStr "localhost" ]} inst)
      as (inst' & Hinst' & _).
    + apply (bool_decide_unpack _). vm_compute. reflexivity.
    + exact Hinst.
    + exists inst'. exact Hinst'.
Defined.

(** Constructing again from the attributes of a constructed object gives
    the same object. *)
Theorem init_of_instance (kwargs inst : gmap string pyval) :
  __init__ kwargs = Ok inst → __init__ inst = Ok inst.
Proof.
  intros Hinst.
  assert (∃ i, __init__ kwargs = Ok i) as Hok by eauto.
  pose proof (proj1 (DjangoFacts.init_succeeds_iff kwargs) Hok) as Hall.
  destruct (proj2 (DjangoFacts.init_succeeds_iff inst)) as [inst' Hinst'].
  { intros s Hs. rewrite (DjangoFacts.init_lookup _ _ s Hinst).
    rewrite bool_decide_eq_true_2 by (by apply required_declared).
    by apply Hall. }
  rewrite Hinst'. f_equal. apply map_eq. intros k.
  rewrite (DjangoFacts.init_lookup _ _ k Hinst').
  rewrite (DjangoFacts.init_lookup _ _ k Hinst).
  by destruct (bool_decide (k ∈ declared)).
Qed.

Lemma init_of_instance_witness :
  ∃ inst,
    __init__ {[ "user_name" := VStr "root"; "password" := VStr "secret";
                "debug" := VBool true ]} = Ok inst
    ∧ __init__ inst = Ok inst.
Proof.
  destruct (proj2 (DjangoFacts.init_succeeds_iff
              {[ "user_name" := VStr "root"; "password" := VStr "secret";
                 "debug" := VBool true ]})) as [inst Hinst].
  - intros s Hs. apply list_elem_of_In in Hs. vm_compute in Hs.
    destruct Hs as [<- | [<- | []]]; vm_compute; eexists; reflexivity.
  - exists inst. split; [exact Hinst | exact (init_of_instance _ _ Hinst)].
Defined.

End DjangoObjectFacts.

(** ** [is_optional] on what [Optional] builds *)

Module OptionalFacts.
Import Typing.
Import Settings.DjangoCarinaDatabaseSettings.

Lemma ty_eqb_NoneType (a : ty) :
  is_NoneType a = false → ty_eqb a TNoneType = false.
Proof. destruct a; simpl; intros H; first [discriminate H | reflexivity]. Qed.

Lemma NoneType_in_filter (a : ty) (l : list ty) :
  is_NoneType a = false →
  NoneType_in (List.filter (fun b => negb (ty_eqb a b)) l) = NoneType_in l.
Proof.
  intros Ha. unfold NoneType_in. induction l as [| b l IH]; [reflexivity |].
  cbn [List.filter existsb]. destruct (is_NoneType b) eqn:Hb.
  - destruct b; try discriminate Hb. rewrite (ty_eqb_NoneType a Ha).
    reflexivity.
  - destruct (negb (ty_eqb a b)); cbn [existsb]; rewrite ?Hb; exact IH.
Qed.

Lemma NoneType_in_dedup (l : list ty) :
  NoneType_in (dedup l) = NoneType_in l.
Proof.
  induction l as [| a l IH]; [reflexivity |].
  cbn [dedup].
  change (is_NoneType a
          || NoneType_in (List.filter (fun b => negb (ty_eqb a b)) (dedup l))
          = is_NoneType a || NoneType_in l).
  destruct (is_NoneType a) eqn:Ha; [reflexivity |]. cbn [orb].
  by rewrite NoneType_in_filter.
Qed.

Lemma NoneType_in_flatten_Optional (x : ty) :
  NoneType_in (flatten [x; TNoneType]) = true.
Proof.
  unfold flatten, NoneType_in. cbn [flat_map].
  rewrite existsb_app. cbn. apply orb_true_r.
Qed.

(** Whatever [X] is, [is_optional] answers [True] on [Optional[X]] unless
    [Optional[X]] has collapsed to [NoneType] itself; for every [X] that
    is neither [NoneType] nor a union of either kind, [Optional[X]] is the
    two-element [Union[X, None]] and [is_optional] answers [True]. *)
Theorem is_optional_on_Optional (x : ty) :
  (is_optional (Optional x) = true ↔ Optional x ≠ TNoneType)
  ∧ (is_NoneType x = false → is_union x = false →
     Optional x = TUnion [x; TNoneType]
     ∧ is_optional (Optional x) = true).
Proof.
  split.
  - pose proof (NoneType_in_flatten_Optional x) as Hin.
    rewrite <- NoneType_in_dedup in Hin.
    unfold Optional, mk_Union.
    destruct (dedup (flatten [x; TNoneType])) as [| a [| b r]] eqn:E.
    + discriminate Hin.
    + unfold NoneType_in in Hin. cbn in Hin.
      rewrite orb_false_r in Hin. destruct a; try discriminate Hin.
      split; [discriminate | congruence].
    + split; [discriminate | intros _; exact Hin].
  - intros Hx Hu.
    assert (Optional x = TUnion [x; TNoneType]) as ->.
    { destruct x; try discriminate Hx; try discriminate Hu; reflexivity. }
    split; [reflexivity |]. cbn.
    unfold NoneType_in. cbn. by rewrite Hx.
Qed.

Lemma is_optional_on_Optional_witness :
  is_optional (Optional (Set_ str)) = true
  ∧ Optional (Set_ str) = TUnion [Set_ str; TNoneType].
Proof.
  destruct (is_optional_on_Optional (Set_ str)) as [_ H].
  destruct H as [Heq Hopt]; [reflexivity | reflexivity |].
  split; [exact Hopt | exact Heq].
Defined.

(** A union written with the bar operator is flattened like any other:
    [Optional[int | str]] is the three-element [Union[int, str, None]]. *)
Example Optional_of_bar_union :
  Optional (TUnionType [int; str]) = TUnion [int; str; TNoneType]
  ∧ is_optional (Optional (TUnionType [int; str])) = true.
Proof. split; reflexivity. Qed.

(** Members are compared whatever their order. *)
Example Union_equal_up_to_order :
  ty_eqb (TUnion [int; str]) (TUnion [str; int]) = true
  ∧ mk_Union [Set_ (TUnion [int; str]); Set_ (TUnion [str; int])]
    = Set_ (TUnion [int; str]).
Proof. split; reflexivity. Qed.

End OptionalFacts.

(** ** Loading the module *)

Module LoadingFacts.
Import Settings.
Import Loading.
Module Dj := Settings.DjangoCarinaDatabaseSettings.
Module Pd := Settings.DatabaseSettings.




End LoadingFacts.
